(** * raffApp-backend: the HTTP handlers of [server.js] over a relational store

    The service is a set of Express handlers.  Each one reads fields of the
    request, runs at most one SQL statement through [pool.query] and maps
    the result (or the exception it caught) to a JSON response.

    The embedding is by explicit state passing: a handler is a function
    from the request, the environment of the call and the database to the
    database after the call and the response sent.  The three external
    collaborators are treated as follows.
    - PostgreSQL: the statements' meaning on tables held as lists of
      rows, with the [SERIAL] sequences, the primary key and the [UNIQUE]
      and [NOT NULL] constraints of the [CREATE TABLE] texts; any other
      failure of the store is an input of the call ([fault]).
    - bcryptjs: the type guard of [hash] and [compare] is written out, the
      hash function itself is a parameter.
    - jsonwebtoken: [sign] and [verify] are parameters. *)

From Stdlib Require Import ZArith List String Ascii Bool Lia DecimalString.
Import ListNotations.

Open Scope string_scope.
Open Scope Z_scope.

(** ** JavaScript values read from a request *)

(** A field of [req.body] or [req.params] as the handlers see it.  [JNum]
    carries an integral number.  An object or array is opaque to the
    handlers, which only test it for truthiness and convert it to text:
    [JObj str pg] carries its [String()] conversion and the text
    node-postgres binds for it. *)
Inductive jsval : Type :=
| JUndefined
| JNull
| JBool (b : bool)
| JNum (n : Z)
| JStr (s : string)
| JObj (str pg : string).

(** [!!v] *)
Definition truthy (v : jsval) : bool :=
  match v with
  | JUndefined | JNull => false
  | JBool b => b
  | JNum n => negb (n =? 0)
  | JStr s => negb (s =? "")%string
  | JObj _ _ => true
  end.

(** [!v] *)
Definition falsy (v : jsval) : bool := negb (truthy v).

Definition number_toString (n : Z) : string :=
  NilZero.string_of_int (Z.to_int n).

(** [String(v)], the conversion a template literal applies. *)
Definition toString (v : jsval) : string :=
  match v with
  | JUndefined => "undefined"
  | JNull => "null"
  | JBool true => "true"
  | JBool false => "false"
  | JNum n => number_toString n
  | JStr s => s
  | JObj str _ => str
  end.

(** A parsed JSON object: [req.body], [req.params]. *)
Definition object : Type := list (string * jsval).

(** [o[k]]: the value under key [k], [undefined] when the key is absent. *)
Fixpoint field (o : object) (k : string) : jsval :=
  match o with
  | [] => JUndefined
  | (k', v) :: rest => if (k' =? k)%string then v else field rest k
  end.

(** [s.split(sep)] for a one-character separator. *)
Fixpoint split (sep : ascii) (s : string) : list string :=
  match s with
  | EmptyString => [EmptyString]
  | String c rest =>
      if Ascii.eqb c sep then EmptyString :: split sep rest
      else match split sep rest with
           | [] => [String c EmptyString]
           | w :: ws => String c w :: ws
           end
  end.

(** ** Exceptions and promises *)

(** A JavaScript [Error]; [code] is the SQLSTATE that node-postgres puts on
    a database error, absent on every other error. *)
Record error : Type := Error { code : option string; message : string }.

(** The result of an awaited call or of a call that may throw. *)
Inductive outcome (A : Type) : Type :=
| Resolved (a : A)
| Rejected (err : error).

Arguments Resolved {A} a.
Arguments Rejected {A} err.

(** ** Responses *)

(** JSON sent back; [JSdate] is a timestamp column. *)
#[warnings="-register-all"] Inductive json : Type :=
| JSnull
| JSbool (b : bool)
| JSnum (n : Z)
| JSstr (s : string)
| JSdate (t : Z)
| JSarr (items : list json)
| JSobj (members : list (string * json)).

Record response : Type := Response { statusCode : Z; res_body : json }.

(** [res.status(c).json(b)] *)
Definition status_json (c : Z) (b : json) : response := Response c b.

(** [res.json(b)]: the status is left at its default, 200. *)
Definition res_json (b : json) : response := Response 200 b.

(** [{ error: msg }] *)
Definition error_body (msg : string) : json := JSobj [("error", JSstr msg)].

(** A member whose value may be [undefined]: JSON serialisation drops it. *)
Definition member (k : string) (v : option json) : list (string * json) :=
  match v with
  | Some j => [(k, j)]
  | None => []
  end.

(** The value of member [k] of a JSON object, if it has one. *)
Fixpoint lookup (k : string) (ms : list (string * json)) : option json :=
  match ms with
  | [] => None
  | (k', v) :: rest => if (k' =? k)%string then Some v else lookup k rest
  end.

Definition get (j : json) (k : string) : option json :=
  match j with
  | JSobj ms => lookup k ms
  | _ => None
  end.

(** ** The store *)

(** A row of [users] or of [admin]: both tables have the columns
    [id SERIAL PRIMARY KEY, username TEXT UNIQUE NOT NULL,
    password TEXT NOT NULL, role TEXT NOT NULL]. *)
Record account : Type := Account {
  a_id : Z;
  a_username : string;
  a_password : string;
  a_role : string
}.

(** A row of [requests]. *)
Record request_row : Type := RequestRow {
  r_id : Z;
  r_username : string;
  r_product_name : string;
  r_quantity : Z;
  r_request_date : option Z;
  r_status : option string
}.

(** The tables, each with the last value its [id] sequence handed out. *)
Record db : Type := Db {
  users : list account;
  users_id_seq : Z;
  requests : list request_row;
  requests_id_seq : Z;
  admin : list account;
  admin_id_seq : Z
}.

Definition set_users (rows : list account) (seq : Z) (st : db) : db :=
  Db rows seq (requests st) (requests_id_seq st) (admin st) (admin_id_seq st).

Definition set_requests (rows : list request_row) (seq : Z) (st : db) : db :=
  Db (users st) (users_id_seq st) rows seq (admin st) (admin_id_seq st).

Definition set_admin (rows : list account) (seq : Z) (st : db) : db :=
  Db (users st) (users_id_seq st) (requests st) (requests_id_seq st) rows seq.

(** The tables without the sequences: what a client can read back. *)
Definition tables (st : db) : list account * list request_row * list account :=
  (users st, requests st, admin st).

Definition unique_violation : error :=
  Error (Some "23505") "duplicate key value violates unique constraint".

Definition not_null_violation : error :=
  Error (Some "23502") "null value violates not-null constraint".

Definition invalid_text_representation : error :=
  Error (Some "22P02") "invalid input syntax for type integer".

(** node-postgres [prepareValue]: the text bound for a query parameter,
    [None] for SQL NULL. *)
Definition prepareValue (v : jsval) : option string :=
  match v with
  | JUndefined | JNull => None
  | JObj _ pg => Some pg
  | _ => Some (toString v)
  end.

Definition optb {A : Type} (p : A -> bool) (o : option A) : bool :=
  match o with
  | Some a => p a
  | None => false
  end.

(** [SELECT id, username, role ...]: the columns of an account sent back
    without the password hash. *)
Definition public_json (a : account) : json :=
  JSobj [("id", JSnum (a_id a)); ("username", JSstr (a_username a));
         ("role", JSstr (a_role a))].

Definition opt_json {A : Type} (f : A -> json) (o : option A) : json :=
  match o with
  | Some a => f a
  | None => JSnull
  end.

(** [SELECT * FROM requests]: every column of a request. *)
Definition request_json (r : request_row) : json :=
  JSobj [("id", JSnum (r_id r)); ("username", JSstr (r_username r));
         ("product_name", JSstr (r_product_name r));
         ("quantity", JSnum (r_quantity r));
         ("request_date", opt_json JSdate (r_request_date r));
         ("status", opt_json JSstr (r_status r))].

(** *** The statements of [server.js] *)

(** [nextval] of a sequence whose last value is [seq]. *)
Definition nextval (seq : Z) : Z := seq + 1.

(** A row of the table already has this primary key or this username. *)
Definition clashes (key : Z) (name : string) (rows : list account) : bool :=
  existsb (fun a => (a_id a =? key) || (a_username a =? name)%string) rows.

Definition has_username (name : string) (rows : list account) : bool :=
  existsb (fun a => (a_username a =? name)%string) rows.

Definition has_id (key : Z) (rows : list account) : bool :=
  existsb (fun a => a_id a =? key) rows.

(** [INSERT INTO users (username, password, role) VALUES ($1, $2, $3)
    RETURNING id, username, role].  The sequence advances whether or not
    the row is kept. *)
Definition insert_user (name pw rl : option string) (st : db)
  : db * outcome (list account) :=
  let key := nextval (users_id_seq st) in
  match name, pw, rl with
  | Some u, Some p, Some r =>
      if clashes key u (users st)
      then (set_users (users st) key st, Rejected unique_violation)
      else let row := Account key u p r in
           (set_users (users st ++ [row]) key st, Resolved [row])
  | _, _, _ => (set_users (users st) key st, Rejected not_null_violation)
  end.

(** [SELECT * FROM t WHERE username = $1] on the rows of [t]; a NULL
    parameter equals no username. *)
Definition select_by_username (name : option string) (rows : list account)
  : list account :=
  filter (fun a => optb (fun u => (a_username a =? u)%string) name) rows.

(** [INSERT INTO admin (username, password, role) VALUES ($1, $2, 'admin')
    ON CONFLICT (username) DO NOTHING]: a row with this username makes the
    statement succeed without inserting. *)
Definition insert_admin (name pw : option string) (st : db)
  : db * outcome (list account) :=
  let key := nextval (admin_id_seq st) in
  match name, pw with
  | Some u, Some p =>
      if has_username u (admin st)
      then (set_admin (admin st) key st, Resolved [])
      else if has_id key (admin st)
      then (set_admin (admin st) key st, Rejected unique_violation)
      else (set_admin (admin st ++ [Account key u p "admin"]) key st,
            Resolved [])
  | _, _ => (set_admin (admin st) key st, Rejected not_null_violation)
  end.

(** [SELECT id, username, role FROM admin WHERE id = $1] *)
Definition select_admin_by_id (key : Z) (st : db) : list account :=
  filter (fun a => a_id a =? key) (admin st).

(** [INSERT INTO requests (username, product_name, quantity)
    VALUES ($1, $2, $3) RETURNING *]: the date and the status take their
    defaults. *)
Definition insert_request (name product : option string) (qty : option Z)
  (today : Z) (st : db) : db * outcome (list request_row) :=
  let key := nextval (requests_id_seq st) in
  match name, product, qty with
  | Some u, Some p, Some q =>
      if existsb (fun r => r_id r =? key) (requests st)
      then (set_requests (requests st) key st, Rejected unique_violation)
      else let row := RequestRow key u p q (Some today) (Some "Pending") in
           (set_requests (requests st ++ [row]) key st, Resolved [row])
  | _, _, _ => (set_requests (requests st) key st, Rejected not_null_violation)
  end.

Definition with_status (s : option string) (r : request_row) : request_row :=
  RequestRow (r_id r) (r_username r) (r_product_name r) (r_quantity r)
             (r_request_date r) s.

Definition is_request (key : option Z) (r : request_row) : bool :=
  optb (fun k => r_id r =? k) key.

(** [UPDATE requests SET status = $1 WHERE id = $2 RETURNING *]: the rows
    with this id are rewritten and returned; a NULL id matches none. *)
Definition update_status (s : option string) (key : option Z) (st : db)
  : db * outcome (list request_row) :=
  (set_requests
     (map (fun r => if is_request key r then with_status s r else r)
          (requests st))
     (requests_id_seq st) st,
   Resolved (map (with_status s) (filter (is_request key) (requests st)))).

(** ** The environment of one call *)

(** What a handler reads besides the request and the store: the signing
    secret [process.env.JWT_SECRET], the clock, the randomness bcrypt salts
    with, and whether the store fails this call for a reason of its own
    (connection lost, table not created yet, ...). *)
Record env : Type := Env {
  JWT_SECRET : option string;
  now : Z;
  entropy : string;
  fault : option error
}.

(** [await pool.query(text, values)]: the statement runs unless the store
    fails, in which case nothing is written. *)
Definition pool_query {A : Type} (e : env) (stmt : db -> db * outcome A)
  (st : db) : db * outcome A :=
  match fault e with
  | Some err => (st, Rejected err)
  | None => stmt st
  end.

(** A statement that only reads. *)
Definition reading {A : Type} (q : db -> A) (st : db) : db * outcome A :=
  (st, Resolved (q st)).

(** ** Requests *)

Record request : Type := Request {
  authorization : option string;
  req_params : object;
  req_body : object
}.

(** [req.headers.authorization?.split(' ')[1]] *)
Definition bearer (req : request) : option string :=
  match authorization req with
  | None => None
  | Some h => nth_error (split " "%char h) 1
  end.

(** [!token] for a token that is a string or [undefined]. *)
Definition no_token (t : option string) : bool :=
  match t with
  | None => true
  | Some s => (s =? "")%string
  end.

(** What [jwt.sign] is given, and what [jwt.verify] gives back: the signed
    fields and the issue and expiry times the library adds. *)
Record payload : Type := Payload {
  p_id : Z;
  p_username : string;
  p_role : string
}.

Record claims : Type := Claims {
  c_id : Z;
  c_username : string;
  c_role : string;
  c_iat : Z;
  c_exp : Z
}.

Definition illegal_arguments : error := Error None "Illegal arguments".

(** What a middleware does: it answers, or it calls [next()] after setting
    [req.admin]. *)
Inductive guarded : Type :=
| Sent (res : response)
| Next (req_admin : claims).

(** ** A small instance of the libraries

    Executable stand-ins for bcrypt, jsonwebtoken and the integer reader,
    used to run the handlers on concrete requests. *)
Module Demo.

Definition hashpw (p : string) (rounds : Z) (rnd : string) : string :=
  p ++ "$" ++ rnd.

Definition checkpw (p hash : string) : outcome bool :=
  Resolved (String.prefix (p ++ "$") hash).

Definition read_int (s : string) : option Z :=
  option_map Z.of_int (NilZero.int_of_string s).

(** A token is [secret.username.role.id.iat]. *)
Definition jwt_sign (p : payload) (secret : option string) (expiresIn : string)
  (t : Z) : outcome string :=
  match secret with
  | None => Rejected (Error None "secretOrPrivateKey must have a value")
  | Some k =>
      Resolved (k ++ "." ++ p_username p ++ "." ++ p_role p ++ "."
                  ++ number_toString (p_id p) ++ "." ++ number_toString t)
  end.

Definition jwt_verify (token : string) (secret : option string) (t : Z)
  : outcome claims :=
  match secret, split "."%char token with
  | Some k, [k'; u; r; i; t0] =>
      match read_int i, read_int t0 with
      | Some n, Some issued =>
          if negb (k =? k')%string
          then Rejected (Error None "invalid signature")
          else if issued + 3600 <=? t
          then Rejected (Error None "jwt expired")
          else Resolved (Claims n u r issued (issued + 3600))
      | _, _ => Rejected (Error None "jwt malformed")
      end
  | _, _ => Rejected (Error None "jwt malformed")
  end.

Definition int4in (s : string) : option Z := read_int s.




Definition body_of (u p r : jsval) : request :=
  Request None [] [("username", u); ("password", p); ("role", r)].

Definition with_header (h : string) : request := Request (Some h) [] [].

Definition quiet : env := Env (Some "k") 1000 "salt" None.

Definition down : env :=
  Env (Some "k") 1000 "salt" (Some (Error (Some "57P01") "terminating connection")).

Definition empty : db := Db [] 0 [] 0 [] 0.

(** One user, one admin and two requests. *)
Definition sample : db :=
  Db [Account 1 "alice" "p1$salt" "user"] 1
     [RequestRow 1 "alice" "soap" 2 (Some 10) (Some "Pending");
      RequestRow 2 "alice" "rope" 1 (Some 20) (Some "Pending")] 2
     [Account 1 "ADMIN" "4325$salt" "admin"] 1.

End Demo.

(** ** The handlers *)

Section Server.

(** bcrypt on strings: the hash of a password for a cost and the salt drawn,
    and the check of a password against a stored hash (which fails on a
    malformed hash). *)
Variable hashpw : string -> Z -> string -> string.
Variable checkpw : string -> string -> outcome bool.

(** [jwt.sign(payload, secret, { expiresIn })] at a time, and
    [jwt.verify(token, secret)] at a time; both throw on failure. *)
Variable jwt_sign : payload -> option string -> string -> Z -> outcome string.
Variable jwt_verify : string -> option string -> Z -> outcome claims.

(** PostgreSQL's reader of an integer from text. *)
Variable int4in : string -> option Z.

(** PostgreSQL's single-precision numbers: the type, its reader from text
    and the JSON number a value is sent back as. *)
Variable float4 : Type.
Variable float4in : string -> option float4.
Variable float4_json : float4 -> json.

(** [bcrypt.hash(s, rounds)]: anything but a string is refused. *)
Definition bcrypt_hash (s : jsval) (rounds : Z) (rnd : string) : outcome string :=
  match s with
  | JStr p => Resolved (hashpw p rounds rnd)
  | _ => Rejected illegal_arguments
  end.

(** [bcrypt.compare(s, hash)]: anything but a string is refused. *)
Definition bcrypt_compare (s : jsval) (hash : string) : outcome bool :=
  match s with
  | JStr p => checkpw p hash
  | _ => Rejected illegal_arguments
  end.

(** A parameter compared with or stored in an [INT] column: a number binds
    as itself, anything else goes through its text. *)
Definition pg_int4 (v : jsval) : outcome (option Z) :=
  match v with
  | JNum n => Resolved (Some n)
  | _ =>
      match prepareValue v with
      | None => Resolved None
      | Some txt =>
          match int4in txt with
          | Some n => Resolved (Some n)
          | None => Rejected invalid_text_representation
          end
      end
  end.

(** A statement one of whose parameters has to be read first: when the
    reading fails the statement fails without running. *)
Definition bound {A B : Type} (p : outcome A) (stmt : A -> db -> db * outcome B)
  (st : db) : db * outcome B :=
  match p with
  | Resolved a => stmt a st
  | Rejected err => (st, Rejected err)
  end.

Definition internal_error : response :=
  status_json 500 (error_body "Internal server error").

Definition internal_error_dot : response :=
  status_json 500 (error_body "Internal server error.").

(** The [catch] block of the register route. *)
Definition register_catch (err : error) : response :=
  if optb (fun c => (c =? "23505")%string) (code err)
  then status_json 409 (error_body "Username already exists")
  else internal_error.

(** [app.post('/api/auth/register', ...)] *)
Definition post_auth_register (e : env) (req : request) (st : db) : db * response :=
  let username := field (req_body req) "username" in
  let password := field (req_body req) "password" in
  let role := field (req_body req) "role" in
  if falsy username || falsy password || falsy role then
    (st, status_json 400 (error_body "Missing username, password, or role"))
  else
    match bcrypt_hash password 10 (entropy e) with
    | Rejected err => (st, register_catch err)
    | Resolved hashedPassword =>
        match pool_query e (insert_user (prepareValue username)
                                        (Some hashedPassword)
                                        (prepareValue role)) st with
        | (st', Resolved rows) =>
            (st', status_json 201
                    (JSobj (("message", JSstr "User registered successfully!")
                            :: member "user" (option_map public_json
                                                (nth_error rows 0)))))
        | (st', Rejected err) => (st', register_catch err)
        end
    end.

Definition invalid_login : response :=
  status_json 401 (error_body "Invalid username or password").

(** [app.post('/api/auth/login', ...)] *)
Definition post_auth_login (e : env) (req : request) (st : db) : db * response :=
  let username := field (req_body req) "username" in
  let password := field (req_body req) "password" in
  if falsy username || falsy password then
    (st, status_json 400 (error_body "Missing username or password"))
  else
    match pool_query e (reading (fun st =>
            select_by_username (prepareValue username) (users st))) st with
    | (st', Rejected _) => (st', internal_error)
    | (st', Resolved []) => (st', invalid_login)
    | (st', Resolved (user :: _)) =>
        match bcrypt_compare password (a_password user) with
        | Rejected _ => (st', internal_error)
        | Resolved false => (st', invalid_login)
        | Resolved true =>
            match jwt_sign (Payload (a_id user) (a_username user) (a_role user))
                           (JWT_SECRET e) "1h" (now e) with
            | Rejected _ => (st', internal_error)
            | Resolved token =>
                (st', res_json (JSobj [("message", JSstr "Login successful");
                                       ("token", JSstr token);
                                       ("username", JSstr (a_username user))]))
            end
        end
    end.

(** [app.post('/api/requests', ...)] *)
Definition post_requests (e : env) (req : request) (st : db) : db * response :=
  let username := field (req_body req) "username" in
  let product_name := field (req_body req) "product_name" in
  let quantity := field (req_body req) "quantity" in
  if falsy username || falsy product_name || falsy quantity then
    (st, status_json 400
           (error_body "Missing username, product name, or quantity"))
  else
    match pool_query e (bound (pg_int4 quantity) (fun q =>
            insert_request (prepareValue username) (prepareValue product_name)
                           q (now e))) st with
    | (st', Resolved rows) =>
        (st', status_json 201
                (JSobj (("message", JSstr "Request submitted successfully!")
                        :: member "request" (option_map request_json
                                               (nth_error rows 0)))))
    | (st', Rejected _) => (st', internal_error)
    end.

(** [app.get('/api/requests', ...)] *)
Definition get_requests (e : env) (req : request) (st : db) : db * response :=
  match pool_query e (reading requests) st with
  | (st', Resolved rows) => (st', status_json 200 (JSarr (map request_json rows)))
  | (st', Rejected _) => (st', internal_error)
  end.

(** [app.patch('/api/requests/:id', ...)] *)
Definition patch_requests_id (e : env) (req : request) (st : db) : db * response :=
  let id := field (req_params req) "id" in
  let status := field (req_body req) "status" in
  if falsy status then
    (st, status_json 400 (error_body "Status is required"))
  else
    match pool_query e (bound (pg_int4 id)
                              (update_status (prepareValue status))) st with
    | (st', Rejected _) => (st', internal_error)
    | (st', Resolved []) => (st', status_json 404 (error_body "Request not found"))
    | (st', Resolved (row :: _)) =>
        (st', status_json 200
                (JSobj [("message", JSstr "Status updated successfully!");
                        ("request", request_json row)]))
    end.

(** [app.post('/api/admin/add', ...)] *)
Definition post_admin_add (e : env) (req : request) (st : db) : db * response :=
  let username := field (req_body req) "username" in
  let password := field (req_body req) "password" in
  if falsy username || falsy password then
    (st, status_json 400 (error_body "Missing username or password."))
  else
    match bcrypt_hash password 10 (entropy e) with
    | Rejected _ => (st, internal_error_dot)
    | Resolved hashedPassword =>
        match pool_query e (insert_admin (prepareValue username)
                                         (Some hashedPassword)) st with
        | (st', Resolved _) =>
            (st', res_json
                    (JSobj [("message",
                             JSstr ("Admin " ++ toString username
                                             ++ " added successfully!"))]))
        | (st', Rejected _) => (st', internal_error_dot)
        end
    end.

Definition invalid_admin_login : response :=
  status_json 401 (error_body "Invalid username or password.").

(** [app.post('/api/admin/login', ...)] *)
Definition post_admin_login (e : env) (req : request) (st : db) : db * response :=
  let username := field (req_body req) "username" in
  let password := field (req_body req) "password" in
  match pool_query e (reading (fun st =>
          select_by_username (prepareValue username) (admin st))) st with
  | (st', Rejected _) => (st', internal_error_dot)
  | (st', Resolved []) => (st', invalid_admin_login)
  | (st', Resolved (adm :: _)) =>
      match bcrypt_compare password (a_password adm) with
      | Rejected _ => (st', internal_error_dot)
      | Resolved false => (st', invalid_admin_login)
      | Resolved true =>
          match jwt_sign (Payload (a_id adm) (a_username adm) (a_role adm))
                         (JWT_SECRET e) "1h" (now e) with
          | Rejected _ => (st', internal_error_dot)
          | Resolved token => (st', res_json (JSobj [("token", JSstr token)]))
          end
      end
  end.

Definition no_token_provided : response :=
  status_json 401 (error_body "Unauthorized: No token provided.").

Definition invalid_token : response :=
  status_json 401 (error_body "Unauthorized: Invalid token.").

(** [app.get('/api/admin/profile', ...)] *)
Definition get_admin_profile (e : env) (req : request) (st : db) : db * response :=
  match bearer req with
  | None => (st, no_token_provided)
  | Some token =>
      if no_token (Some token) then (st, no_token_provided)
      else
        match jwt_verify token (JWT_SECRET e) (now e) with
        | Rejected _ => (st, invalid_token)
        | Resolved decoded =>
            match pool_query e (reading (select_admin_by_id (c_id decoded))) st with
            | (st', Rejected _) => (st', invalid_token)
            | (st', Resolved []) =>
                (st', status_json 404 (error_body "Admin not found."))
            | (st', Resolved (row :: _)) => (st', res_json (public_json row))
            end
        end
  end.

(** [app.get('/api/admin/all', ...)] *)
Definition get_admin_all (e : env) (req : request) (st : db) : db * response :=
  match pool_query e (reading admin) st with
  | (st', Resolved rows) => (st', res_json (JSarr (map public_json rows)))
  | (st', Rejected _) => (st', internal_error_dot)
  end.

(** [verifyAdminToken] *)
Definition verifyAdminToken (e : env) (req : request) : guarded :=
  match bearer req with
  | None => Sent no_token_provided
  | Some token =>
      if no_token (Some token) then Sent no_token_provided
      else
        match jwt_verify token (JWT_SECRET e) (now e) with
        | Rejected _ => Sent invalid_token
        | Resolved decoded =>
            if negb (c_role decoded =? "admin")%string
            then Sent (status_json 403 (error_body "Forbidden: Not an admin."))
            else Next decoded
        end
  end.




(** ** The remaining routes and the start-up routines

    As for the statements above, a [TEXT] column is taken to hold any
    string. *)

(** [SELECT * FROM requests WHERE username = $1] *)
Definition select_requests_by_username (name : option string) (st : db)
  : list request_row :=
  filter (fun r => optb (fun u => (r_username r =? u)%string) name) (requests st).

(** [app.get('/api/requests/:username', ...)] *)
Definition get_requests_username (e : env) (req : request) (st : db)
  : db * response :=
  let username := field (req_params req) "username" in
  match pool_query e (reading (select_requests_by_username
                                 (prepareValue username))) st with
  | (st', Resolved rows) => (st', status_json 200 (JSarr (map request_json rows)))
  | (st', Rejected _) => (st', internal_error)
  end.

(** [process.env.X || fallback]: an unset or empty variable gives the
    fallback. *)
Definition or_default (v : option string) (fallback : string) : string :=
  match v with
  | Some s => if (s =? "")%string then fallback else s
  | None => fallback
  end.

(** [addAdmin], run once at start-up with [process.env.ADMIN_USERNAME] and
    [process.env.ADMIN_PASSWORD]; its [catch] block only logs. *)
Definition addAdmin (e : env) (ADMIN_USERNAME ADMIN_PASSWORD : option string)
  (st : db) : db :=
  let username := or_default ADMIN_USERNAME "ADMIN" in
  let plainPassword := or_default ADMIN_PASSWORD "default_password" in
  match bcrypt_hash (JStr plainPassword) 10 (entropy e) with
  | Rejected _ => st
  | Resolved hashedPassword =>
      fst (pool_query e (insert_admin (prepareValue (JStr username))
                                      (Some hashedPassword)) st)
  end.

Definition with_password (p : string) (a : account) : account :=
  Account (a_id a) (a_username a) p (a_role a).

Definition is_named (name : option string) (a : account) : bool :=
  optb (fun u => (a_username a =? u)%string) name.

(** [UPDATE admin SET password = $1 WHERE username = $2] *)
Definition update_admin_password (pw name : option string) (st : db)
  : db * outcome (list account) :=
  match pw with
  | Some p =>
      (set_admin (map (fun a => if is_named name a then with_password p a else a)
                      (admin st))
                 (admin_id_seq st) st,
       Resolved [])
  | None =>
      if existsb (is_named name) (admin st)
      then (st, Rejected not_null_violation)
      else (st, Resolved [])
  end.

(** [updatePassword], run once at start-up in the second variant of the
    server; it has no [catch], so a failure is a rejected promise. *)
Definition updatePassword (e : env) (st : db) : db * outcome unit :=
  let plainPassword := "4325" in
  match bcrypt_hash (JStr plainPassword) 10 (entropy e) with
  | Rejected err => (st, Rejected err)
  | Resolved hashedPassword =>
      match pool_query e (update_admin_password
                            (Some hashedPassword)
                            (prepareValue (JStr "RAFFADMIN"))) st with
      | (st', Resolved _) => (st', Resolved tt)
      | (st', Rejected err) => (st', Rejected err)
      end
  end.

(** The routes registered on [app] that work on the tables of [db]. *)
Inductive route : Type :=
| POST_auth_register
| POST_auth_login
| POST_requests
| GET_requests
| PATCH_requests_id
| GET_requests_username
| POST_admin_add
| POST_admin_login
| GET_admin_profile
| GET_admin_all.

Definition handler (r : route) : env -> request -> db -> db * response :=
  match r with
  | POST_auth_register => post_auth_register
  | POST_auth_login => post_auth_login
  | POST_requests => post_requests
  | GET_requests => get_requests
  | PATCH_requests_id => patch_requests_id
  | GET_requests_username => get_requests_username
  | POST_admin_add => post_admin_add
  | POST_admin_login => post_admin_login
  | GET_admin_profile => get_admin_profile
  | GET_admin_all => get_admin_all
  end.

(** What the constraints and the sequences promise of a table of accounts:
    usernames and ids are unique and no id is beyond the sequence. *)
Definition accounts_ok (rows : list account) (seq : Z) : Prop :=
  NoDup (map a_username rows) /\ NoDup (map a_id rows)
  /\ Forall (fun a => a_id a <= seq) rows.

Definition requests_ok (rows : list request_row) (seq : Z) : Prop :=
  NoDup (map r_id rows) /\ Forall (fun r => r_id r <= seq) rows.

Definition consistent (st : db) : Prop :=
  accounts_ok (users st) (users_id_seq st)
  /\ requests_ok (requests st) (requests_id_seq st)
  /\ accounts_ok (admin st) (admin_id_seq st).

(** A body of the shape [{ error: msg }]. *)
Definition is_error_body (b : json) : Prop := exists msg, b = error_body msg.

(** [glue.join(sep)], the inverse of [split]. *)
Fixpoint join (sep : ascii) (pieces : list string) : string :=
  match pieces with
  | [] => ""
  | [w] => w
  | w :: rest => w ++ String sep (join sep rest)
  end.

Fixpoint has_char (c : ascii) (s : string) : bool :=
  match s with
  | EmptyString => false
  | String c' rest => Ascii.eqb c' c || has_char c rest
  end.

(** *** The catalogue of services *)









(** The routes whose statement is a [SELECT]. *)
Definition read_only (r : route) : bool :=
  match r with
  | POST_auth_login | GET_requests | GET_requests_username
  | POST_admin_login | GET_admin_profile | GET_admin_all => true
  | _ => false
  end.

(** The statuses each route can answer with. *)
Definition codes (r : route) : list Z :=
  match r with
  | POST_auth_register => [201; 400; 409; 500]
  | POST_auth_login => [200; 400; 401; 500]
  | POST_requests => [201; 400; 500]
  | GET_requests => [200; 500]
  | PATCH_requests_id => [200; 400; 404; 500]
  | GET_requests_username => [200; 500]
  | POST_admin_add => [200; 400; 500]
  | POST_admin_login => [200; 401; 500]
  | GET_admin_profile => [200; 401; 404]
  | GET_admin_all => [200; 500]
  end.






(** ** The header and the store on small inputs *)

Example bearer_of_header :
  bearer (Request (Some "Bearer abc.def") [] []) = Some "abc.def"
  /\ bearer (Request (Some "Bearer") [] []) = None
  /\ bearer (Request (Some "Bearer  abc") [] []) = Some ""
  /\ bearer (Request None [] []) = None.
Proof. repeat split. Qed.

Example falsy_values :
  map falsy [JUndefined; JNull; JBool false; JNum 0; JStr ""; JNum 3;
             JStr "0"; JObj "[object Object]" "{}"]
  = [true; true; true; true; true; false; false; false].
Proof. reflexivity. Qed.

Example insert_user_twice :
  let (st1, first) := insert_user (Some "al") (Some "h") (Some "user") Demo.empty in
  let (st2, second) := insert_user (Some "al") (Some "h2") (Some "user") st1 in
  first = Resolved [Account 1 "al" "h" "user"]
  /\ second = Rejected unique_violation
  /\ users st2 = [Account 1 "al" "h" "user"] /\ users_id_seq st2 = 2.
Proof. repeat split. Qed.

(** ** Facts about the store *)

Lemma truthy_str (s : string) : s <> "" -> falsy (JStr s) = false.
Proof.
  intros H. unfold falsy. simpl.
  destruct (String.eqb_spec s ""); [contradiction | reflexivity].
Qed.




(** ** Registration *)



(** ** Login *)



Ltac wrong_status H :=
  simpl in H; try discriminate H; try (exfalso; lia).

(** C3 (amended): a login that succeeds issues the token signed for exactly
    the id, username and role of the matched row with [expiresIn: '1h'];
    user login sends it with the username, admin login sends the token
    alone. *)
Theorem login_token_embeds_row :
  (forall e req st st' res,
      post_auth_login e req st = (st', res) -> statusCode res = 200 ->
      exists user rest token,
        select_by_username (prepareValue (field (req_body req) "username"))
                           (users st) = user :: rest
        /\ jwt_sign (Payload (a_id user) (a_username user) (a_role user))
                    (JWT_SECRET e) "1h" (now e) = Resolved token
        /\ res_body res = JSobj [("message", JSstr "Login successful");
                                 ("token", JSstr token);
                                 ("username", JSstr (a_username user))])
  /\
  (forall e req st st' res,
      post_admin_login e req st = (st', res) -> statusCode res = 200 ->
      exists adm rest token,
        select_by_username (prepareValue (field (req_body req) "username"))
                           (admin st) = adm :: rest
        /\ jwt_sign (Payload (a_id adm) (a_username adm) (a_role adm))
                    (JWT_SECRET e) "1h" (now e) = Resolved token
        /\ res_body res = JSobj [("token", JSstr token)]).
Proof.
  split; intros e req st st' res Hrun Hok.
  - unfold post_auth_login in Hrun.
    destruct (falsy _ || falsy _).
    { injection Hrun as _ <-. wrong_status Hok. }
    unfold pool_query, reading in Hrun.
    destruct (fault e).
    { injection Hrun as _ <-. wrong_status Hok. }
    destruct (select_by_username _ _) as [| user rest] eqn:Hsel.
    { injection Hrun as _ <-. wrong_status Hok. }
    destruct (bcrypt_compare _ _) as [[|] | err].
    2, 3: injection Hrun as _ <-; wrong_status Hok.
    destruct (jwt_sign _ _ _ _) as [token | err] eqn:Hsign.
    2: injection Hrun as _ <-; wrong_status Hok.
    injection Hrun as _ <-. exists user, rest, token. repeat split. exact Hsign.
  - unfold post_admin_login in Hrun.
    unfold pool_query, reading in Hrun.
    destruct (fault e).
    { injection Hrun as _ <-. wrong_status Hok. }
    destruct (select_by_username _ _) as [| adm rest] eqn:Hsel.
    { injection Hrun as _ <-. wrong_status Hok. }
    destruct (bcrypt_compare _ _) as [[|] | err].
    2, 3: injection Hrun as _ <-; wrong_status Hok.
    destruct (jwt_sign _ _ _ _) as [token | err] eqn:Hsign.
    2: injection Hrun as _ <-; wrong_status Hok.
    injection Hrun as _ <-. exists adm, rest, token. repeat split. exact Hsign.
Qed.

(** ** Requests *)

(** C4: a submission whose username, product name or quantity is falsy
    (a quantity of 0 included) is answered 400 and the store is returned
    as it was: no row is created. *)
Theorem submit_missing_field :
  forall e req st,
    falsy (field (req_body req) "username") = true
    \/ falsy (field (req_body req) "product_name") = true
    \/ falsy (field (req_body req) "quantity") = true ->
    post_requests e req st
    = (st, status_json 400
             (error_body "Missing username, product name, or quantity"))
    /\ requests (fst (post_requests e req st)) = requests st.
Proof.
  intros e req st H.
  assert (Hany : falsy (field (req_body req) "username")
                 || falsy (field (req_body req) "product_name")
                 || falsy (field (req_body req) "quantity") = true).
  { destruct H as [H | [H | H]]; rewrite H;
      repeat rewrite orb_true_r; reflexivity. }
  unfold post_requests. rewrite Hany. split; reflexivity.
Qed.

Lemma update_none (s : option string) (key : option Z) (rows : list request_row) :
  filter (is_request key) rows = [] ->
  map (fun r => if is_request key r then with_status s r else r) rows = rows.
Proof.
  induction rows as [| r rows IH]; simpl; [reflexivity |].
  destruct (is_request key r); [discriminate |].
  intros H. now rewrite (IH H).
Qed.

Lemma filter_head_in {A : Type} (f : A -> bool) (l : list A) (a : A) (rest : list A) :
  filter f l = a :: rest -> In a l /\ f a = true.
Proof.
  intros H. apply filter_In. rewrite H. now left.
Qed.

Lemma filter_nil_existsb {A : Type} (f : A -> bool) (l : list A) :
  existsb f l = false -> filter f l = [].
Proof.
  induction l as [| a l IH]; simpl; [reflexivity |].
  intros H. apply orb_false_iff in H. destruct H as [Ha Hl].
  rewrite Ha. now apply IH.
Qed.

Lemma filter_cons_existsb {A : Type} (f : A -> bool) (l : list A) :
  existsb f l = true -> exists a rest, filter f l = a :: rest.
Proof.
  induction l as [| a l IH]; simpl; [discriminate |].
  destruct (f a); [now eexists; eexists |].
  simpl. exact IH.
Qed.



(** ** Administrators *)




(** ** Tokens *)

Lemma no_token_some (t : string) : t <> "" -> no_token (Some t) = false.
Proof.
  intros H. simpl. destruct (String.eqb_spec t ""); [contradiction | reflexivity].
Qed.

Lemma no_token_cases (t : option string) :
  no_token t = true -> t = None \/ t = Some "".
Proof.
  destruct t as [s |]; simpl; [| now left].
  intros H. apply String.eqb_eq in H. right. now subst.
Qed.

(** C7: the admin guard answers 401 when the Authorization header carries
    no token, 401 when the token does not verify, 403 when it verifies
    with a role other than "admin", and otherwise calls [next()] with the
    decoded claims attached to the request. *)
Theorem admin_guard_cases :
  forall e req,
    (no_token (bearer req) = true ->
     verifyAdminToken e req
     = Sent (status_json 401 (error_body "Unauthorized: No token provided.")))
    /\
    (forall t err,
        bearer req = Some t -> t <> "" ->
        jwt_verify t (JWT_SECRET e) (now e) = Rejected err ->
        verifyAdminToken e req
        = Sent (status_json 401 (error_body "Unauthorized: Invalid token.")))
    /\
    (forall t decoded,
        bearer req = Some t -> t <> "" ->
        jwt_verify t (JWT_SECRET e) (now e) = Resolved decoded ->
        c_role decoded <> "admin" ->
        verifyAdminToken e req
        = Sent (status_json 403 (error_body "Forbidden: Not an admin.")))
    /\
    (forall t decoded,
        bearer req = Some t -> t <> "" ->
        jwt_verify t (JWT_SECRET e) (now e) = Resolved decoded ->
        c_role decoded = "admin" ->
        verifyAdminToken e req = Next decoded).
Proof.
  intros e req. unfold verifyAdminToken. repeat split.
  - intros H. destruct (no_token_cases _ H) as [-> | ->]; reflexivity.
  - intros t err -> Ht Hv. now rewrite (no_token_some t Ht), Hv.
  - intros t decoded -> Ht Hv Hrole. rewrite (no_token_some t Ht), Hv.
    destruct (String.eqb_spec (c_role decoded) "admin"); [contradiction | reflexivity].
  - intros t decoded -> Ht Hv Hrole. rewrite (no_token_some t Ht), Hv.
    now rewrite Hrole.
Qed.


(** ** Listings *)


(** ** Admin login *)

(** Admin login never answers 400; a missing username, or a missing
    password with a username that no admin row has, is answered 401 when
    the store works. *)
Lemma admin_login_unvalidated :
  forall e req st,
    statusCode (snd (post_admin_login e req st)) <> 400
    /\ (fault e = None ->
        prepareValue (field (req_body req) "username") = None ->
        post_admin_login e req st = (st, invalid_admin_login))
    /\ (fault e = None ->
        select_by_username (prepareValue (field (req_body req) "username"))
                           (admin st) = [] ->
        post_admin_login e req st = (st, invalid_admin_login)).
Proof.
  intros e req st. unfold post_admin_login, pool_query, reading.
  repeat split.
  - destruct (fault e); [simpl; lia |].
    destruct (select_by_username _ _); [simpl; lia |].
    destruct (bcrypt_compare _ _) as [[|] |]; try (simpl; lia).
    destruct (jwt_sign _ _ _ _); simpl; lia.
  - intros -> ->. simpl.
    assert (H : select_by_username None (admin st) = []).
    { unfold select_by_username. induction (admin st); simpl; auto. }
    now rewrite H.
  - intros -> ->. reflexivity.
Qed.

(** C10 at its failing input: admin login for an existing admin with the
    password left out.  The row is found, [bcrypt.compare(undefined, hash)]
    is rejected and the [catch] block answers 500, for every hash function
    and signer. *)
Theorem admin_login_missing_password :
  post_admin_login Demo.quiet (Request None [] [("username", JStr "ADMIN")])
                   Demo.sample
  = (Demo.sample, status_json 500 (error_body "Internal server error.")).
Proof. reflexivity. Qed.

(** ** The constraints as an invariant *)

Lemma NoDup_snoc {A : Type} (l : list A) (x : A) :
  NoDup l -> ~ In x l -> NoDup (l ++ [x]).
Proof.
  induction l as [| a l IH]; simpl; intros Hnd Hx.
  - constructor; [intros [] | constructor].
  - inversion_clear Hnd as [| ? ? Ha Hl]. constructor.
    + intros Hin. apply in_app_or in Hin. destruct Hin as [Hin | [-> | []]].
      * contradiction.
      * apply Hx. now left.
    + apply IH; [assumption |]. intros Hin. apply Hx. now right.
Qed.

Lemma has_username_false (name : string) (rows : list account) :
  has_username name rows = false -> ~ In name (map a_username rows).
Proof.
  unfold has_username. induction rows as [| a rows IH]; simpl.
  - intros _ [].
  - intros H. apply orb_false_iff in H. destruct H as [Ha Hrows].
    intros [Heq | Hin].
    + rewrite Heq, String.eqb_refl in Ha. discriminate.
    + now apply IH.
Qed.

Lemma below_not_in (seq : Z) (rows : list account) :
  Forall (fun a => a_id a <= seq) rows -> ~ In (nextval seq) (map a_id rows).
Proof.
  unfold nextval. intros H Hin. apply in_map_iff in Hin.
  destruct Hin as (a & Ha & Hin).
  rewrite Forall_forall in H. specialize (H a Hin). lia.
Qed.

Lemma below_has_id (seq : Z) (rows : list account) :
  Forall (fun a => a_id a <= seq) rows -> has_id (nextval seq) rows = false.
Proof.
  unfold has_id, nextval. induction 1 as [| a rows Ha _ IH]; simpl.
  - reflexivity.
  - rewrite IH, orb_false_r. apply Z.eqb_neq. lia.
Qed.

Lemma clashes_split (key : Z) (name : string) (rows : list account) :
  clashes key name rows = has_id key rows || has_username name rows.
Proof.
  unfold clashes, has_id, has_username.
  induction rows as [| a rows IH]; simpl; [reflexivity |].
  rewrite IH.
  destruct (a_id a =? key), (a_username a =? name)%string,
    (existsb _ rows), (existsb _ rows); reflexivity.
Qed.

Lemma accounts_ok_next (rows : list account) (seq : Z) :
  accounts_ok rows seq -> accounts_ok rows (nextval seq).
Proof.
  intros (Hu & Hi & Hb). repeat split; try assumption.
  eapply Forall_impl; [| exact Hb]. unfold nextval. simpl. intros a Ha. lia.
Qed.

Lemma accounts_ok_insert (rows : list account) (seq : Z) (u p r : string) :
  accounts_ok rows seq -> has_username u rows = false ->
  accounts_ok (rows ++ [Account (nextval seq) u p r]) (nextval seq).
Proof.
  intros (Hu & Hi & Hb) Hfresh. repeat split.
  - rewrite map_app. simpl. apply NoDup_snoc; [assumption |].
    now apply has_username_false.
  - rewrite map_app. simpl. apply NoDup_snoc; [assumption |].
    now apply below_not_in.
  - apply Forall_app. split.
    + eapply Forall_impl; [| exact Hb]. unfold nextval. simpl. intros a Ha. lia.
    + constructor; [simpl; lia | constructor].
Qed.

Lemma insert_user_consistent (name pw rl : option string) (st : db) :
  consistent st -> consistent (fst (insert_user name pw rl st)).
Proof.
  intros (Hu & Hr & Ha). unfold insert_user.
  assert (Hnext := accounts_ok_next _ _ Hu).
  destruct name as [u |], pw as [p |], rl as [r |];
    try (split; [| split]; simpl; assumption).
  rewrite clashes_split.
  assert (Hb := Hu). destruct Hb as (_ & _ & Hb).
  rewrite (below_has_id _ _ Hb). simpl.
  destruct (has_username u (users st)) eqn:Hknown.
  - split; [| split]; simpl; assumption.
  - split; [| split]; simpl; try assumption.
    now apply accounts_ok_insert.
Qed.

Lemma insert_admin_consistent (name pw : option string) (st : db) :
  consistent st -> consistent (fst (insert_admin name pw st)).
Proof.
  intros (Hu & Hr & Ha). unfold insert_admin.
  assert (Hnext := accounts_ok_next _ _ Ha).
  destruct name as [u |], pw as [p |];
    try (split; [| split]; simpl; assumption).
  destruct (has_username u (admin st)) eqn:Hknown.
  - split; [| split]; simpl; assumption.
  - assert (Hb := Ha). destruct Hb as (_ & _ & Hb).
    rewrite (below_has_id _ _ Hb).
    split; [| split]; simpl; try assumption.
    now apply accounts_ok_insert.
Qed.

Lemma insert_request_consistent (name product : option string) (qty : option Z)
  (today : Z) (st : db) :
  consistent st -> consistent (fst (insert_request name product qty today st)).
Proof.
  intros (Hu & (Hr1 & Hr2) & Ha). unfold insert_request.
  assert (Hnext : requests_ok (requests st) (nextval (requests_id_seq st))).
  { split; [assumption |]. eapply Forall_impl; [| exact Hr2].
    unfold nextval. simpl. intros r Hr. lia. }
  destruct name as [u |], product as [p |], qty as [q |];
    try (split; [| split]; simpl; assumption).
  destruct (existsb _ _).
  - split; [| split]; simpl; assumption.
  - split; [| split]; simpl; try assumption. split.
    + rewrite map_app. simpl. apply NoDup_snoc; [assumption |].
      intros Hin. apply in_map_iff in Hin. destruct Hin as (r & Hr & Hin).
      rewrite Forall_forall in Hr2. specialize (Hr2 r Hin).
      unfold nextval in Hr. lia.
    + apply Forall_app. split; [apply Hnext |].
      constructor; [simpl; lia | constructor].
Qed.

Lemma update_status_ids (s : option string) (key : option Z)
  (rows : list request_row) :
  map r_id (map (fun r => if is_request key r then with_status s r else r) rows)
  = map r_id rows.
Proof.
  rewrite map_map. apply map_ext. intros r. now destruct (is_request key r).
Qed.

Lemma update_status_consistent (s : option string) (key : option Z) (st : db) :
  consistent st -> consistent (fst (update_status s key st)).
Proof.
  intros (Hu & (Hr1 & Hr2) & Ha). unfold update_status.
  split; [| split]; simpl; try assumption. split.
  - now rewrite update_status_ids.
  - rewrite Forall_map. eapply Forall_impl; [| exact Hr2].
    intros r Hr. simpl in *. now destruct (is_request key r).
Qed.

Lemma update_password_fields (p : string) (name : option string)
  (rows : list account) :
  map a_username (map (fun a => if is_named name a then with_password p a else a) rows)
  = map a_username rows
  /\ map a_id (map (fun a => if is_named name a then with_password p a else a) rows)
     = map a_id rows.
Proof.
  rewrite !map_map. split; apply map_ext; intros a; now destruct (is_named name a).
Qed.

Lemma update_admin_password_consistent (pw name : option string) (st : db) :
  consistent st -> consistent (fst (update_admin_password pw name st)).
Proof.
  intros (Hu & Hr & (Ha1 & Ha2 & Ha3)). unfold update_admin_password.
  destruct pw as [p |].
  - destruct (update_password_fields p name (admin st)) as [Hn Hi].
    split; [| split]; simpl; try assumption. repeat split.
    + now rewrite Hn.
    + now rewrite Hi.
    + rewrite Forall_map. eapply Forall_impl; [| exact Ha3].
      intros a Ha. simpl in *. now destruct (is_named name a).
  - destruct (existsb _ _); simpl; split; [| split | | split];
      first [assumption | now repeat split].
Qed.

Lemma pool_query_consistent {A : Type} (e : env) (stmt : db -> db * outcome A)
  (st : db) :
  consistent st -> consistent (fst (stmt st)) ->
  consistent (fst (pool_query e stmt st)).
Proof.
  intros Hst Hstmt. unfold pool_query. now destruct (fault e).
Qed.

Lemma bound_consistent {A B : Type} (p : outcome A)
  (stmt : A -> db -> db * outcome B) (st : db) :
  consistent st -> (forall a, consistent (fst (stmt a st))) ->
  consistent (fst (bound p stmt st)).
Proof.
  intros Hst Hstmt. unfold bound. destruct p; [apply Hstmt | exact Hst].
Qed.

(** Splits the answer of a handler along the result of its one query,
    keeping what is known of the store the query returned. *)
Ltac along_query P :=
  match goal with
  | |- context [pool_query ?e ?stmt ?st] =>
      let H := fresh "Hq" in
      assert (H : P (fst (pool_query e stmt st)));
      [| destruct (pool_query e stmt st) as [? [? | ?]]; simpl in H ]
  end.

Ltac branches :=
  repeat match goal with
         | |- context [match ?x with _ => _ end] => destruct x
         | |- context [if ?b then _ else _] => destruct b
         end.

Lemma handler_consistent (r : route) (e : env) (req : request) (st : db) :
  consistent st -> consistent (fst (handler r e req st)).
Proof.
  intros Hst. destruct r; simpl.
  - unfold post_auth_register.
    destruct (falsy _ || falsy _ || falsy _); [exact Hst |].
    destruct (bcrypt_hash _ _ _); [| exact Hst].
    along_query consistent.
    + apply pool_query_consistent; [exact Hst | now apply insert_user_consistent].
    + exact Hq.
    + exact Hq.
  - unfold post_auth_login.
    destruct (falsy _ || falsy _); [exact Hst |].
    along_query consistent.
    + apply pool_query_consistent; [exact Hst | exact Hst].
    + branches; exact Hq.
    + exact Hq.
  - unfold post_requests.
    destruct (falsy _ || falsy _ || falsy _); [exact Hst |].
    along_query consistent.
    + apply pool_query_consistent; [exact Hst |].
      apply bound_consistent; [exact Hst |].
      intros q. now apply insert_request_consistent.
    + exact Hq.
    + exact Hq.
  - unfold get_requests. along_query consistent.
    + apply pool_query_consistent; exact Hst.
    + exact Hq.
    + exact Hq.
  - unfold patch_requests_id.
    destruct (falsy _); [exact Hst |].
    along_query consistent.
    + apply pool_query_consistent; [exact Hst |].
      apply bound_consistent; [exact Hst |].
      intros k. now apply update_status_consistent.
    + branches; exact Hq.
    + exact Hq.
  - unfold get_requests_username. along_query consistent.
    + apply pool_query_consistent; exact Hst.
    + exact Hq.
    + exact Hq.
  - unfold post_admin_add.
    destruct (falsy _ || falsy _); [exact Hst |].
    destruct (bcrypt_hash _ _ _); [| exact Hst].
    along_query consistent.
    + apply pool_query_consistent; [exact Hst | now apply insert_admin_consistent].
    + exact Hq.
    + exact Hq.
  - unfold post_admin_login. along_query consistent.
    + apply pool_query_consistent; exact Hst.
    + branches; exact Hq.
    + exact Hq.
  - unfold get_admin_profile.
    destruct (bearer req); [| exact Hst].
    destruct (no_token _); [exact Hst |].
    destruct (jwt_verify _ _ _); [| exact Hst].
    along_query consistent.
    + apply pool_query_consistent; exact Hst.
    + branches; exact Hq.
    + exact Hq.
  - unfold get_admin_all. along_query consistent.
    + apply pool_query_consistent; exact Hst.
    + exact Hq.
    + exact Hq.
Qed.

(** X1: the constraints hold as an invariant.  On a store whose usernames
    and ids are unique in every table and whose ids lie within the
    sequences, every route, for every request and environment, and both
    start-up routines leave such a store. *)
Theorem constraints_are_invariant :
  forall st,
    consistent st ->
    (forall r e req, consistent (fst (handler r e req st)))
    /\ (forall e name pw, consistent (addAdmin e name pw st))
    /\ (forall e, consistent (fst (updatePassword e st))).
Proof.
  intros st Hst. split; [| split].
  - intros r e req. now apply handler_consistent.
  - intros e name pw. unfold addAdmin. simpl.
    apply pool_query_consistent; [exact Hst | now apply insert_admin_consistent].
  - intros e. unfold updatePassword. simpl.
    along_query consistent.
    + apply pool_query_consistent;
        [exact Hst | now apply update_admin_password_consistent].
    + exact Hq.
    + exact Hq.
Qed.

(** ** Registration and login together *)






(** ** What every route keeps to *)

Ltac open_handler :=
  unfold post_auth_register, post_auth_login, post_requests, get_requests,
    patch_requests_id, get_requests_username, post_admin_add,
    post_admin_login, get_admin_profile, get_admin_all,
    register_catch, pool_query, reading, bound.

Lemma insert_user_tables (name pw rl : option string) (st st' : db) (err : error) :
  insert_user name pw rl st = (st', Rejected err) -> tables st' = tables st.
Proof.
  unfold insert_user.
  destruct name, pw, rl; try (intros H; injection H as <- _; reflexivity).
  destruct (clashes _ _ _); intros H; [| discriminate].
  injection H as <- _. reflexivity.
Qed.

Lemma insert_admin_tables (name pw : option string) (st st' : db) (err : error) :
  insert_admin name pw st = (st', Rejected err) -> tables st' = tables st.
Proof.
  unfold insert_admin.
  destruct name, pw; try (intros H; injection H as <- _; reflexivity).
  destruct (has_username _ _); [discriminate |].
  destruct (has_id _ _); intros H; [| discriminate].
  injection H as <- _. reflexivity.
Qed.

Lemma insert_request_tables (name product : option string) (qty : option Z)
  (today : Z) (st st' : db) (err : error) :
  insert_request name product qty today st = (st', Rejected err) ->
  tables st' = tables st.
Proof.
  unfold insert_request.
  destruct name, product, qty; try (intros H; injection H as <- _; reflexivity).
  destruct (existsb _ _); intros H; [| discriminate].
  injection H as <- _. reflexivity.
Qed.

Ltac refuted H := simpl in H; exfalso; lia.

(** Case analysis on every test a handler makes, innermost first. *)
Ltac leaves :=
  repeat match goal with
         | |- context [match ?x with _ => _ end] =>
             lazymatch x with
             | context [match _ with _ => _ end] => fail
             | context [if _ then _ else _] => fail
             | _ => destruct x
             end
         | |- context [if ?b then _ else _] =>
             lazymatch b with
             | context [match _ with _ => _ end] => fail
             | context [if _ then _ else _] => fail
             | _ => destruct b
             end
         end.

(** X4: a call that fails writes nothing.  For every route, request,
    environment and store, an answer with status 400 or above leaves every
    table as it was, and the routes that only read return the store itself
    whatever they answer. *)
Theorem failures_write_nothing :
  forall r e req st,
    (read_only r = true -> fst (handler r e req st) = st)
    /\ (400 <= statusCode (snd (handler r e req st)) ->
        tables (fst (handler r e req st)) = tables st).
Proof.
  intros r e req st. split.
  - destruct r; simpl; try discriminate; intros _; open_handler;
      leaves; reflexivity.
  - destruct r; simpl;
      try (open_handler; leaves; intros H; solve [reflexivity | refuted H]).
    + unfold post_auth_register, pool_query.
      destruct (falsy _ || falsy _ || falsy _); [reflexivity |].
      destruct (bcrypt_hash _ _ _); [| reflexivity].
      destruct (fault e); [reflexivity |].
      destruct (insert_user _ _ _ _) as [st' [rows | err]] eqn:Hins; simpl.
      * intros H. refuted H.
      * intros _. eapply insert_user_tables; eassumption.
    + unfold post_requests, pool_query, bound.
      destruct (falsy _ || falsy _ || falsy _); [reflexivity |].
      destruct (fault e); [reflexivity |].
      destruct (pg_int4 _); [| reflexivity].
      destruct (insert_request _ _ _ _ _) as [st' [rows | err]] eqn:Hins; simpl.
      * intros H. refuted H.
      * intros _. eapply insert_request_tables; eassumption.
    + unfold patch_requests_id, pool_query, bound, update_status.
      destruct (falsy _); [reflexivity |].
      destruct (fault e); [reflexivity |].
      destruct (pg_int4 _) as [key | err]; [| reflexivity].
      destruct (filter (is_request key) (requests st)) eqn:Hsel; simpl.
      * intros _. unfold tables. simpl. now rewrite (update_none _ _ _ Hsel).
      * intros H. refuted H.
    + unfold post_admin_add, pool_query.
      destruct (falsy _ || falsy _); [reflexivity |].
      destruct (bcrypt_hash _ _ _); [| reflexivity].
      destruct (fault e); [reflexivity |].
      destruct (insert_admin _ _ _) as [st' [rows | err]] eqn:Hins; simpl.
      * intros H. refuted H.
      * intros _. eapply insert_admin_tables; eassumption.
Qed.

(** X5: the statuses of each route.  Whatever the request, the environment
    and the store, a route answers with one of the statuses listed for it
    in [codes], and every answer with status 400 or above has a body of the
    shape [{ error: msg }]. *)
Theorem statuses_and_error_bodies :
  forall r e req st,
    In (statusCode (snd (handler r e req st))) (codes r)
    /\ (400 <= statusCode (snd (handler r e req st)) ->
        is_error_body (res_body (snd (handler r e req st)))).
Proof.
  intros r e req st. unfold is_error_body. split.
  - destruct r; simpl; open_handler; leaves; simpl;
      repeat first [left; reflexivity | right].
  - destruct r; simpl; open_handler; leaves; simpl; intros H;
      solve [eexists; reflexivity | exfalso; lia].
Qed.

(** ** Passwords that are not strings *)



(** ** Requests of one user *)




(** ** Patching twice *)




(** ** The profile and the guard *)

(** X10: the profile route does not look at the role.  For a token that
    verifies with a role other than "admin" and an id that some admin row
    has, the guard answers 403, and the profile route, on which the guard
    is not installed, answers 200 with that admin row. *)
Theorem profile_ignores_role :
  forall e req st t decoded,
    bearer req = Some t -> t <> "" ->
    jwt_verify t (JWT_SECRET e) (now e) = Resolved decoded ->
    c_role decoded <> "admin" ->
    fault e = None ->
    has_id (c_id decoded) (admin st) = true ->
    verifyAdminToken e req
    = Sent (status_json 403 (error_body "Forbidden: Not an admin."))
    /\ exists row,
      In row (admin st) /\ a_id row = c_id decoded
      /\ get_admin_profile e req st = (st, status_json 200 (public_json row)).
Proof.
  intros e req st t decoded Ht Ht0 Hv Hrole Hf Hex. split.
  - unfold verifyAdminToken. rewrite Ht, (no_token_some t Ht0), Hv.
    destruct (String.eqb_spec (c_role decoded) "admin"); [contradiction | reflexivity].
  - unfold get_admin_profile, select_admin_by_id, has_id in *.
    rewrite Ht, (no_token_some t Ht0), Hv. unfold pool_query, reading.
    rewrite Hf.
    destruct (filter_cons_existsb _ _ Hex) as (row & rest & Hsel).
    rewrite Hsel. destruct (filter_head_in _ _ _ _ Hsel) as [Hin Hrow].
    exists row. repeat split; [assumption | now apply Z.eqb_eq].
Qed.

(** ** The Authorization header *)

Lemma split_not_empty (sep : ascii) (s : string) : split sep s <> [].
Proof.
  destruct s as [| c rest]; simpl; [discriminate |].
  destruct (Ascii.eqb c sep); [discriminate |].
  destruct (split sep rest); discriminate.
Qed.

Lemma join_cons_char (sep c : ascii) (w : string) (ws : list string) :
  join sep (String c w :: ws) = String c (join sep (w :: ws)).
Proof. destruct ws; reflexivity. Qed.

Lemma split_without (sep : ascii) (s : string) :
  has_char sep s = false -> split sep s = [s].
Proof.
  induction s as [| c rest IH]; simpl; [reflexivity |].
  intros H. apply orb_false_iff in H. destruct H as [Hc Hrest].
  rewrite Hc, (IH Hrest). reflexivity.
Qed.

Lemma split_at (sep : ascii) (w t : string) :
  has_char sep w = false ->
  split sep (w ++ String sep t) = w :: split sep t.
Proof.
  induction w as [| c rest IH]; simpl.
  - intros _. now rewrite Ascii.eqb_refl.
  - intros H. apply orb_false_iff in H. destruct H as [Hc Hrest].
    rewrite Hc, (IH Hrest). reflexivity.
Qed.

(** X11: splitting the header.  [split] and [join] are inverse:
    joining the pieces of any string gives the string back.  The token
    taken from a header is the text between its first and second space:
    for a first word [w] and a token [t] without spaces the headers [w t]
    and [w t more] both give [t], whatever [w] is ("Bearer" is not asked
    for), and a header without a space gives none. *)
Theorem header_token :
  (forall sep s, join sep (split sep s) = s)
  /\ (forall w t more rest body,
         has_char " " w = false -> has_char " " t = false ->
         bearer (Request (Some (w ++ " " ++ t)) rest body) = Some t
         /\ bearer (Request (Some (w ++ " " ++ t ++ " " ++ more)) rest body)
            = Some t
         /\ bearer (Request (Some w) rest body) = None).
Proof.
  split.
  - intros sep s. induction s as [| c rest IH]; simpl; [reflexivity |].
    destruct (Ascii.eqb_spec c sep) as [-> | Hc].
    + destruct (split sep rest) as [| w ws] eqn:Hsplit.
      * now elim (split_not_empty sep rest).
      * simpl. simpl in IH. now rewrite IH.
    + destruct (split sep rest) as [| w ws] eqn:Hsplit.
      * now elim (split_not_empty sep rest).
      * rewrite join_cons_char. now rewrite IH.
  - intros w t more rest body Hw Ht. unfold bearer. simpl authorization.
    repeat split.
    + change (w ++ " " ++ t)%string with (w ++ String " " t)%string.
      rewrite (split_at _ _ _ Hw). simpl. now rewrite (split_without _ _ Ht).
    + change (w ++ " " ++ t ++ " " ++ more)%string
        with (w ++ String " " (t ++ String " " more))%string.
      rewrite (split_at _ _ _ Hw). simpl. now rewrite (split_at _ _ _ Ht).
    + now rewrite (split_without _ _ Hw).
Qed.

(** ** Administrators: seeding, adding, logging in *)








(** ** The password reset at start-up *)

Lemma select_after_reset (h u : string) (rows : list account) :
  select_by_username (Some u)
    (map (fun a => if is_named (Some u) a then with_password h a else a) rows)
  = map (with_password h) (select_by_username (Some u) rows).
Proof.
  unfold select_by_username, is_named.
  induction rows as [| a rows IH]; [reflexivity |].
  cbn [map filter optb].
  destruct (a_username a =? u)%string eqn:Ha.
  - cbn [with_password a_username]. rewrite Ha. cbn [map]. f_equal. exact IH.
  - rewrite Ha. exact IH.
Qed.

(** X14: the password reset that the second variant of the server runs at
    start-up.  When the store fails the promise is rejected with the
    store's error and nothing is written.  When it works, every admin row
    named "RAFFADMIN" gets the hash of "4325" and no other row or table
    changes; so whatever password that admin had, a login as RAFFADMIN
    with "4325", which bcrypt checks against the hash it made, answers 200
    with the token signed for that row. *)
Theorem password_reset_at_startup :
  forall e st,
    (forall err, fault e = Some err -> updatePassword e st = (st, Rejected err))
    /\ (fault e = None ->
        let st1 := fst (updatePassword e st) in
        snd (updatePassword e st) = Resolved tt
        /\ users st1 = users st /\ requests st1 = requests st
        /\ admin st1
           = map (fun a => if (a_username a =? "RAFFADMIN")%string
                           then with_password (hashpw "4325" 10 (entropy e)) a
                           else a)
                 (admin st)
        /\ (forall e2 req adm rest token,
               field (req_body req) "username" = JStr "RAFFADMIN" ->
               field (req_body req) "password" = JStr "4325" ->
               fault e2 = None ->
               select_by_username (Some "RAFFADMIN") (admin st) = adm :: rest ->
               checkpw "4325" (hashpw "4325" 10 (entropy e)) = Resolved true ->
               jwt_sign (Payload (a_id adm) (a_username adm) (a_role adm))
                        (JWT_SECRET e2) "1h" (now e2) = Resolved token ->
               post_admin_login e2 req st1
               = (st1, status_json 200 (JSobj [("token", JSstr token)])))).
Proof.
  intros e st. split.
  - intros err Hf. unfold updatePassword, bcrypt_hash, pool_query.
    now rewrite Hf.
  - intros Hf st1.
    assert (Hrun : updatePassword e st
                   = (set_admin
                        (map (fun a => if is_named (Some "RAFFADMIN") a
                                       then with_password (hashpw "4325" 10 (entropy e)) a
                                       else a) (admin st))
                        (admin_id_seq st) st,
                      Resolved tt)).
    { unfold updatePassword, bcrypt_hash, pool_query. now rewrite Hf. }
    unfold st1. rewrite Hrun. simpl. repeat split.
    intros e2 req adm rest token Hu Hp Hf2 Hsel Hcheck Hsign.
    unfold post_admin_login, pool_query, reading. rewrite Hf2, Hu, Hp.
    simpl prepareValue. simpl admin.
    rewrite select_after_reset, Hsel. simpl.
    now rewrite Hcheck, Hsign.
Qed.

(** ** The catalogue *)



(** ** Presence checks and the constraints *)



(** ** Login on a consistent store *)

Lemma select_the_account (rows : list account) (a : account) :
  NoDup (map a_username rows) -> In a rows ->
  select_by_username (Some (a_username a)) rows = [a].
Proof.
  unfold select_by_username. simpl.
  induction rows as [| b rows IH]; simpl; [intros _ [] |].
  intros Hnd Hin. inversion_clear Hnd as [| ? ? Hb Hrows].
  destruct Hin as [-> | Hin].
  - rewrite String.eqb_refl. f_equal.
    apply filter_nil_existsb. fold (has_username (a_username a) rows).
    destruct (has_username (a_username a) rows) eqn:Hk; [| reflexivity].
    exfalso. apply Hb. unfold has_username in Hk.
    apply existsb_exists in Hk. destruct Hk as (c & Hc & Heq).
    apply String.eqb_eq in Heq. rewrite <- Heq. now apply in_map.
  - destruct (String.eqb_spec (a_username b) (a_username a)) as [Heq | _].
    + exfalso. apply Hb. rewrite Heq. now apply in_map.
    + now apply IH.
Qed.

(** X17: on a consistent store login is decided by the stored hash of the
    one user that has the username.  For any row of [users], a login with
    its username and a non-empty string password, the store working,
    answers 200 with the username and the token signed for the id,
    username and role of that row when bcrypt accepts the password for its
    hash and the signer gives a token, and 401 when bcrypt refuses the
    password; the store is returned as it was. *)
Theorem login_decided_by_stored_hash :
  forall e req st user p,
    consistent st -> In user (users st) ->
    field (req_body req) "username" = JStr (a_username user) ->
    a_username user <> "" ->
    field (req_body req) "password" = JStr p -> p <> "" ->
    fault e = None ->
    (forall token,
        checkpw p (a_password user) = Resolved true ->
        jwt_sign (Payload (a_id user) (a_username user) (a_role user))
                 (JWT_SECRET e) "1h" (now e) = Resolved token ->
        post_auth_login e req st
        = (st, status_json 200 (JSobj [("message", JSstr "Login successful");
                                       ("token", JSstr token);
                                       ("username", JSstr (a_username user))])))
    /\ (checkpw p (a_password user) = Resolved false ->
        post_auth_login e req st = (st, invalid_login)).
Proof.
  intros e req st user p ((Hnd & _) & _) Hin Hu Hu0 Hp Hp0 Hf.
  assert (Hrun :
             post_auth_login e req st
             = match bcrypt_compare (JStr p) (a_password user) with
               | Rejected _ => (st, internal_error)
               | Resolved false => (st, invalid_login)
               | Resolved true =>
                   match jwt_sign (Payload (a_id user) (a_username user)
                                           (a_role user))
                                  (JWT_SECRET e) "1h" (now e) with
                   | Rejected _ => (st, internal_error)
                   | Resolved token =>
                       (st, res_json (JSobj [("message", JSstr "Login successful");
                                             ("token", JSstr token);
                                             ("username", JSstr (a_username user))]))
                   end
               end).
  { unfold post_auth_login, pool_query, reading.
    rewrite Hu, Hp, !truthy_str by assumption. simpl.
    now rewrite Hf, (select_the_account _ _ Hnd Hin). }
  rewrite Hrun. simpl. split.
  - intros token Hcheck Hsign. now rewrite Hcheck, Hsign.
  - intros Hcheck. now rewrite Hcheck.
Qed.

End Server.

(** ** The theorems at concrete requests *)



(** Both logins succeeding on the sample store. *)
Lemma login_token_embeds_row_witness :
  (exists user rest token,
      select_by_username (Some "alice") (users Demo.sample) = user :: rest
      /\ Demo.jwt_sign (Payload (a_id user) (a_username user) (a_role user))
                       (Some "k") "1h" 1000 = Resolved token
      /\ res_body (snd (post_auth_login Demo.checkpw Demo.jwt_sign Demo.quiet
                          (Request None [] [("username", JStr "alice");
                                            ("password", JStr "p1")])
                          Demo.sample))
         = JSobj [("message", JSstr "Login successful");
                  ("token", JSstr token);
                  ("username", JSstr (a_username user))])
  /\
  (exists adm rest token,
      select_by_username (Some "ADMIN") (admin Demo.sample) = adm :: rest
      /\ Demo.jwt_sign (Payload (a_id adm) (a_username adm) (a_role adm))
                       (Some "k") "1h" 1000 = Resolved token
      /\ res_body (snd (post_admin_login Demo.checkpw Demo.jwt_sign Demo.quiet
                          (Request None [] [("username", JStr "ADMIN");
                                            ("password", JStr "4325")])
                          Demo.sample))
         = JSobj [("token", JSstr token)]).
Proof.
  destruct (login_token_embeds_row Demo.checkpw Demo.jwt_sign) as [Huser Hadmin].
  split.
  - apply (Huser Demo.quiet
             (Request None [] [("username", JStr "alice"); ("password", JStr "p1")])
             Demo.sample Demo.sample _); reflexivity.
  - apply (Hadmin Demo.quiet
             (Request None [] [("username", JStr "ADMIN"); ("password", JStr "4325")])
             Demo.sample Demo.sample _); reflexivity.
Defined.

(** C3 as stated fails for admin login: the login succeeds and the body it
    sends has a token and no username. *)
Lemma admin_login_omits_username :
  let res := snd (post_admin_login Demo.checkpw Demo.jwt_sign Demo.quiet
                    (Request None [] [("username", JStr "ADMIN");
                                      ("password", JStr "4325")])
                    Demo.sample) in
  statusCode res = 200
  /\ get (res_body res) "token" = Some (JSstr "k.ADMIN.admin.1.1000")
  /\ get (res_body res) "username" = None
  /\ get (res_body res) "username" <> Some (JSstr "ADMIN").
Proof. repeat split. discriminate. Qed.

(** A submission with quantity 0. *)
Lemma submit_missing_field_witness :
  falsy (JNum 0) = true
  /\ post_requests Demo.int4in Demo.quiet
       (Request None [] [("username", JStr "alice"); ("product_name", JStr "soap");
                         ("quantity", JNum 0)]) Demo.sample
     = (Demo.sample,
        status_json 400 (error_body "Missing username, product name, or quantity")).
Proof.
  split; [reflexivity |].
  apply (submit_missing_field Demo.int4in). right. right. reflexivity.
Defined.



(** The guard on a header without a token, on a token signed with another
    secret, on alice's token and on the admin's token. *)
Lemma admin_guard_cases_witness :
  verifyAdminToken Demo.jwt_verify Demo.quiet (Demo.with_header "Bearer")
  = Sent (status_json 401 (error_body "Unauthorized: No token provided."))
  /\ verifyAdminToken Demo.jwt_verify Demo.quiet
       (Demo.with_header "Bearer x.ADMIN.admin.1.900")
     = Sent (status_json 401 (error_body "Unauthorized: Invalid token."))
  /\ verifyAdminToken Demo.jwt_verify Demo.quiet
       (Demo.with_header "Bearer k.alice.user.1.900")
     = Sent (status_json 403 (error_body "Forbidden: Not an admin."))
  /\ verifyAdminToken Demo.jwt_verify Demo.quiet
       (Demo.with_header "Bearer k.ADMIN.admin.1.900")
     = Next (Claims 1 "ADMIN" "admin" 900 4500).
Proof.
  split; [| split; [| split]].
  - apply (admin_guard_cases Demo.jwt_verify). reflexivity.
  - apply (proj1 (proj2 (admin_guard_cases Demo.jwt_verify Demo.quiet
             (Demo.with_header "Bearer x.ADMIN.admin.1.900")))
             "x.ADMIN.admin.1.900" (Error None "invalid signature"));
      solve [reflexivity | discriminate].
  - apply (proj1 (proj2 (proj2 (admin_guard_cases Demo.jwt_verify Demo.quiet
             (Demo.with_header "Bearer k.alice.user.1.900"))))
             "k.alice.user.1.900" (Claims 1 "alice" "user" 900 4500));
      solve [reflexivity | discriminate].
  - apply (proj2 (proj2 (proj2 (admin_guard_cases Demo.jwt_verify Demo.quiet
             (Demo.with_header "Bearer k.ADMIN.admin.1.900"))))
             "k.ADMIN.admin.1.900" (Claims 1 "ADMIN" "admin" 900 4500));
      solve [reflexivity | discriminate].
Defined.



(** ** The further properties at concrete requests *)

Ltac constraints_hold :=
  unfold consistent, accounts_ok, requests_ok; simpl;
  repeat match goal with
         | |- _ /\ _ => split
         | |- NoDup _ => constructor
         | |- Forall _ _ => constructor
         | |- ~ _ => simpl; intuition discriminate
         | |- _ <= _ => simpl; lia
         end.

Lemma sample_consistent : consistent Demo.sample.
Proof. constraints_hold. Qed.


(** The sample store after a registration, a seeding and a reset. *)
Lemma constraints_are_invariant_witness :
  consistent Demo.sample
  /\ consistent
       (fst (handler Demo.hashpw Demo.checkpw Demo.jwt_sign Demo.jwt_verify
               Demo.int4in POST_auth_register Demo.quiet
               (Demo.body_of (JStr "carol") (JStr "pw") (JStr "user"))
               Demo.sample))
  /\ consistent (addAdmin Demo.hashpw Demo.quiet None None Demo.sample)
  /\ consistent (fst (updatePassword Demo.hashpw Demo.quiet Demo.sample)).
Proof.
  destruct (constraints_are_invariant Demo.hashpw Demo.checkpw Demo.jwt_sign
              Demo.jwt_verify Demo.int4in Demo.sample sample_consistent)
    as (Hroute & Hseed & Hreset).
  split; [exact sample_consistent |].
  split; [apply Hroute |]. split; [apply Hseed | apply Hreset].
Defined.



(** A refused registration and a refused login on the sample store. *)
Lemma failures_write_nothing_witness :
  statusCode (snd (post_auth_register Demo.hashpw Demo.quiet
                     (Demo.body_of (JStr "alice") (JStr "pw") (JStr "user"))
                     Demo.sample)) = 409
  /\ tables (fst (post_auth_register Demo.hashpw Demo.quiet
                    (Demo.body_of (JStr "alice") (JStr "pw") (JStr "user"))
                    Demo.sample))
     = tables Demo.sample
  /\ fst (post_auth_login Demo.checkpw Demo.jwt_sign Demo.quiet
            (Demo.body_of (JStr "alice") (JStr "no") JUndefined) Demo.sample)
     = Demo.sample.
Proof.
  split; [reflexivity |]. split.
  - apply (proj2 (failures_write_nothing Demo.hashpw Demo.checkpw Demo.jwt_sign
                    Demo.jwt_verify Demo.int4in POST_auth_register Demo.quiet
                    (Demo.body_of (JStr "alice") (JStr "pw") (JStr "user"))
                    Demo.sample)).
    simpl. lia.
  - apply (proj1 (failures_write_nothing Demo.hashpw Demo.checkpw Demo.jwt_sign
                    Demo.jwt_verify Demo.int4in POST_auth_login Demo.quiet
                    (Demo.body_of (JStr "alice") (JStr "no") JUndefined)
                    Demo.sample)).
    reflexivity.
Defined.

(** The refused registration has a listed status and an error body. *)
Lemma statuses_and_error_bodies_witness :
  In (statusCode (snd (post_auth_register Demo.hashpw Demo.quiet
                         (Demo.body_of (JStr "alice") (JStr "pw") (JStr "user"))
                         Demo.sample)))
     [201; 400; 409; 500]
  /\ is_error_body
       (res_body (snd (post_auth_register Demo.hashpw Demo.quiet
                         (Demo.body_of (JStr "alice") (JStr "pw") (JStr "user"))
                         Demo.sample))).
Proof.
  destruct (statuses_and_error_bodies Demo.hashpw Demo.checkpw Demo.jwt_sign
              Demo.jwt_verify Demo.int4in POST_auth_register Demo.quiet
              (Demo.body_of (JStr "alice") (JStr "pw") (JStr "user"))
              Demo.sample) as [Hcode Hbody].
  split; [exact Hcode |]. apply Hbody. simpl. lia.
Defined.





(** alice's token, whose id is also the id of the admin. *)
Lemma profile_ignores_role_witness :
  verifyAdminToken Demo.jwt_verify Demo.quiet
    (Demo.with_header "Bearer k.alice.user.1.900")
  = Sent (status_json 403 (error_body "Forbidden: Not an admin."))
  /\ exists row,
    In row (admin Demo.sample) /\ a_id row = 1
    /\ get_admin_profile Demo.jwt_verify Demo.quiet
         (Demo.with_header "Bearer k.alice.user.1.900") Demo.sample
       = (Demo.sample, status_json 200 (public_json row)).
Proof.
  apply (profile_ignores_role Demo.jwt_verify Demo.quiet
           (Demo.with_header "Bearer k.alice.user.1.900") Demo.sample
           "k.alice.user.1.900" (Claims 1 "alice" "user" 900 4500));
    solve [reflexivity | discriminate].
Defined.

(** Headers with the schemes "Bearer" and "Token". *)
Lemma header_token_witness :
  bearer (Request (Some "Bearer abc") [] []) = Some "abc"
  /\ bearer (Request (Some "Token abc def") [] []) = Some "abc"
  /\ bearer (Request (Some "abc") [] []) = None.
Proof.
  destruct header_token as [_ Htoken].
  split; [| split].
  - apply (Htoken "Bearer" "abc" "" [] []); reflexivity.
  - apply (Htoken "Token" "abc" "def" [] []); reflexivity.
  - apply (Htoken "abc" "" "" [] []); reflexivity.
Defined.



(** RAFFADMIN, stored with another hash, after the reset. *)
Lemma password_reset_at_startup_witness :
  admin (fst (updatePassword Demo.hashpw Demo.quiet
                (Db [] 0 [] 0 [Account 1 "RAFFADMIN" "old" "admin";
                               Account 2 "ADMIN" "4325$salt" "admin"] 2)))
  = [Account 1 "RAFFADMIN" "4325$salt" "admin";
     Account 2 "ADMIN" "4325$salt" "admin"]
  /\ post_admin_login Demo.checkpw Demo.jwt_sign Demo.quiet
       (Demo.body_of (JStr "RAFFADMIN") (JStr "4325") JUndefined)
       (fst (updatePassword Demo.hashpw Demo.quiet
               (Db [] 0 [] 0 [Account 1 "RAFFADMIN" "old" "admin";
                              Account 2 "ADMIN" "4325$salt" "admin"] 2)))
     = (fst (updatePassword Demo.hashpw Demo.quiet
               (Db [] 0 [] 0 [Account 1 "RAFFADMIN" "old" "admin";
                              Account 2 "ADMIN" "4325$salt" "admin"] 2)),
        status_json 200 (JSobj [("token", JSstr "k.RAFFADMIN.admin.1.1000")]))
  /\ updatePassword Demo.hashpw Demo.down Demo.sample
     = (Demo.sample,
        Rejected (Error (Some "57P01") "terminating connection")).
Proof.
  destruct (password_reset_at_startup Demo.hashpw Demo.checkpw Demo.jwt_sign
              Demo.quiet
              (Db [] 0 [] 0 [Account 1 "RAFFADMIN" "old" "admin";
                             Account 2 "ADMIN" "4325$salt" "admin"] 2))
    as [_ Hup].
  destruct (Hup eq_refl) as (_ & _ & _ & Hrows & Hlogin).
  split; [exact Hrows |]. split.
  - apply (Hlogin Demo.quiet
             (Demo.body_of (JStr "RAFFADMIN") (JStr "4325") JUndefined)
             (Account 1 "RAFFADMIN" "old" "admin") []
             "k.RAFFADMIN.admin.1.1000");
      reflexivity.
  - apply (password_reset_at_startup Demo.hashpw Demo.checkpw Demo.jwt_sign
             Demo.down Demo.sample).
    reflexivity.
Defined.



(** alice with her password and with another. *)
Lemma login_decided_by_stored_hash_witness :
  post_auth_login Demo.checkpw Demo.jwt_sign Demo.quiet
    (Demo.body_of (JStr "alice") (JStr "p1") JUndefined) Demo.sample
  = (Demo.sample,
     status_json 200 (JSobj [("message", JSstr "Login successful");
                             ("token", JSstr "k.alice.user.1.1000");
                             ("username", JSstr "alice")]))
  /\ post_auth_login Demo.checkpw Demo.jwt_sign Demo.quiet
       (Demo.body_of (JStr "alice") (JStr "p2") JUndefined) Demo.sample
     = (Demo.sample, invalid_login).
Proof.
  split.
  - apply (login_decided_by_stored_hash Demo.checkpw Demo.jwt_sign Demo.quiet
             (Demo.body_of (JStr "alice") (JStr "p1") JUndefined) Demo.sample
             (Account 1 "alice" "p1$salt" "user") "p1");
      solve [reflexivity | discriminate | exact sample_consistent
            | left; reflexivity].
  - apply (login_decided_by_stored_hash Demo.checkpw Demo.jwt_sign Demo.quiet
             (Demo.body_of (JStr "alice") (JStr "p2") JUndefined) Demo.sample
             (Account 1 "alice" "p1$salt" "user") "p2");
      solve [reflexivity | discriminate | exact sample_consistent
            | left; reflexivity].
Defined.
